(** * Portfolio API ([main.py]): case-study filter, contact submission,
      database diagnostics

    A shallow embedding of the three non-trivial handlers of [main.py]:
    [list_case_studies], [submit_contact] (with the request validation that
    FastAPI derives from the [ContactIn] annotation) and [test_database].

    Python values are modelled as follows.
    - [str] is a sequence of Unicode code points, [list N].  Literals that
      are pure ASCII are written [py "..."]; the few non-ASCII characters of
      the source are spelled by code point.
    - a [dict] with string keys is a [gmap string _].
    - an exception raised by a collaborator is an [exn]; code that may raise
      lives in the monad [M], which threads the mutable object the handler
      works on (the [response] dict, or the log of calls made to the
      persistence collaborator). *)

From Stdlib Require Import NArith ZArith Ascii.
From stdpp Require Import base option list strings gmap.

Open Scope N_scope.

(** ** Python strings *)

Abbreviation pystr := (list N).

Definition py (s : string) : pystr :=
  N_of_ascii <$> String.list_ascii_of_string s.

(** Code points of the non-ASCII characters used by the source. *)
Definition CHECK_MARK : pystr := [0x2705].          (* U+2705 *)
Definition CROSS_MARK : pystr := [0x274c].          (* U+274C *)
Definition WARNING_SIGN : pystr := [0x26a0; 0xfe0f]. (* U+26A0 U+FE0F *)
Definition EURO_SIGN : pystr := [0x20ac].           (* U+20AC *)

(** Truthiness of a [str]: only the empty string is falsy. *)
Definition str_truthy (s : pystr) : bool :=
  match s with [] => false | _ :: _ => true end.

(** Truthiness of an [Optional[str]]: [None] and [""] are falsy. *)
Definition opt_truthy (o : option pystr) : bool :=
  match o with None => false | Some s => str_truthy s end.

(** [s[:n]] *)
Definition slice_to (n : nat) (s : pystr) : pystr := take n s.

Definition is_ascii (s : pystr) : bool := forallb (fun c => c <? 128) s.

Definition ascii_lower_cp (c : N) : N :=
  if (65 <=? c) && (c <=? 90) then c + 32 else c.

(** ** Values stored in the dicts the handlers build *)

Inductive pyval :=
  | PNone
  | PStr (s : pystr)
  | PList (l : list pystr).

Definition of_optional (o : option pystr) : pyval :=
  match o with None => PNone | Some s => PStr s end.

Abbreviation dict := (gmap string pyval).

(** ** Exceptions and the handler monad *)

(** An instance of [Exception] raised by a collaborator: whether it is an
    [ImportError], and its [str(e)]. *)
Record exn := Exn { is_import_error : bool; exn_str : pystr }.

Inductive result (E A : Type) :=
  | Ok (a : A)
  | Raise (e : E).
Arguments Ok {E A} a.
Arguments Raise {E A} e.

(** A computation that reads and mutates an object of type [S] and either
    returns or raises an [E]; what it mutated before raising stays
    mutated. *)
Definition M (E S A : Type) : Type := S -> result E A * S.

Definition ret {E S A} (a : A) : M E S A := fun s => (Ok a, s).

Definition bind {E S A B} (m : M E S A) (k : A -> M E S B) : M E S B :=
  fun s => match m s with
           | (Ok a, s') => k a s'
           | (Raise e, s') => (Raise e, s')
           end.

Definition raise {E S A} (e : E) : M E S A := fun s => (Raise e, s).

(** An expression that returns or raises without touching the object. *)
Definition lift {E S A} (r : result E A) : M E S A := fun s => (r, s).

Definition get {E S} : M E S S := fun s => (Ok s, s).

Definition modify {E S} (f : S -> S) : M E S unit := fun s => (Ok tt, f s).

(** [try: body / except ... as e: handler e]; the handler may itself raise,
    possibly an exception of another kind. *)
Definition try_except {E E' S A} (body : M E S A) (handler : E -> M E' S A)
  : M E' S A :=
  fun s => match body s with
           | (Ok a, s') => (Ok a, s')
           | (Raise e, s') => handler e s'
           end.

#[global] Instance M_ret {E S} : MRet (M E S) := fun A a => ret a.
#[global] Instance M_bind {E S} : MBind (M E S) := fun A B k m => bind m k.

(** ** Case studies (lines 39-80) *)

Inductive Category := ECommerce | LeadGen | LocalBusiness | All.

(** The string a [Literal[...]] category holds. *)
Definition Category_str (c : Category) : pystr :=
  match c with
  | ECommerce => py "E-commerce"
  | LeadGen => py "Lead Gen"
  | LocalBusiness => py "Local Business"
  | All => py "All"
  end.

Record CaseStudy := {
  title : pystr;
  category : Category;
  metric_label : pystr;
  metric_value : pystr;
  budget : option pystr;
  summary : pystr
}.

Definition CASE_STUDIES : list CaseStudy := [
  {| title := py "Soorpriz";
     category := ECommerce;
     metric_label := py "Best ROAS";
     metric_value := py "3.6x";
     budget := Some (py "$5.5K");
     summary := py "Scaled ROAS while testing creatives and audience stacks" |};
  {| title := py "Dobrosvit";
     category := LeadGen;
     metric_label := py "Cost per Lead";
     metric_value := EURO_SIGN ++ py "7";
     budget := None;
     summary := py "Generated 70 qualified leads via conversion-optimized funnels" |};
  {| title := py "Fertility Therapy";
     category := LeadGen;
     metric_label := py "CPL";
     metric_value := EURO_SIGN ++ py "18.75";
     budget := None;
     summary := py "Delivered 8 booked calls through targeted lead gen campaigns" |}
].

(** [cs.model_dump()] *)
Definition model_dump (cs : CaseStudy) : dict :=
  <["title" := PStr (title cs)]>
  (<["category" := PStr (Category_str (category cs))]>
  (<["metric_label" := PStr (metric_label cs)]>
  (<["metric_value" := PStr (metric_value cs)]>
  (<["budget" := of_optional (budget cs)]>
  (<["summary" := PStr (summary cs)]> ∅))))).

Section Lower.

(** [str.lower] on a string with a non-ASCII character follows the Unicode
    tables of the interpreter, which are taken as given. *)
Variable unicode_lower : pystr -> pystr.

(** [s.lower()] *)
Definition lower (s : pystr) : pystr :=
  if is_ascii s then ascii_lower_cp <$> s else unicode_lower s.

(** Equality under case-insensitive comparison, as the handler decides it:
    both sides lowered. *)
Definition ci_equal (a b : pystr) : Prop := lower a = lower b.

#[global] Instance ci_equal_dec a b : Decision (ci_equal a b).
Proof. unfold ci_equal. apply _. Defined.

(** [list_case_studies(category)] *)
Definition list_case_studies (category_q : option pystr) : list dict :=
  match category_q with
  | None => model_dump <$> CASE_STUDIES
  | Some c =>
      if negb (str_truthy c) || bool_decide (lower c = py "all")
      then model_dump <$> CASE_STUDIES
      else model_dump <$>
             filter (fun cs => lower (Category_str (category cs)) = lower c)
                    CASE_STUDIES
  end.

End Lower.

(** ** Contact submission (lines 82-97) *)

(** A JSON value of the request body; arrays and objects are not told
    apart, no field of [ContactIn] accepts either. *)
Inductive jvalue :=
  | JNull
  | JBool (b : bool)
  | JNumber (z : Z)
  | JString (s : pystr)
  | JCompound.

Record ContactIn := {
  name : pystr;
  email : pystr;
  subject : pystr;
  message : pystr;
  source : option pystr
}.

(** [payload.model_dump()] *)
Definition ContactIn_dump (p : ContactIn) : dict :=
  <["name" := PStr (name p)]>
  (<["email" := PStr (email p)]>
  (<["subject" := PStr (subject p)]>
  (<["message" := PStr (message p)]>
  (<["source" := of_optional (source p)]> ∅)))).

(** A field annotated [str]: present and a JSON string. *)
Definition field_str (v : option jvalue) : option pystr :=
  match v with
  | Some (JString s) => Some s
  | _ => None
  end.

(** A field annotated [Optional[str] = None]. *)
Definition field_optional_str (v : option jvalue) : option (option pystr) :=
  match v with
  | None | Some JNull => Some None
  | Some (JString s) => Some (Some s)
  | Some _ => None
  end.

(** [raise HTTPException(status_code=..., detail=...)] *)
Record HTTPException := {
  status_code : Z;
  detail : pystr
}.

(** What the client of [POST /api/contact] gets back. *)
Inductive reply :=
  | JSONResponse (body : dict)                 (* 200 *)
  | RequestValidationError                     (* 422, from FastAPI *)
  | ErrorResponse (code : Z) (detail : pystr).  (* a raised HTTPException *)

Definition reply_status (r : reply) : Z :=
  match r with
  | JSONResponse _ => 200
  | RequestValidationError => 422
  | ErrorResponse code _ => code
  end.

Definition is_client_error (r : reply) : bool :=
  ((400 <=? reply_status r) && (reply_status r <? 500))%Z.

Definition is_server_error (r : reply) : bool :=
  ((500 <=? reply_status r) && (reply_status r <? 600))%Z.

Section Contact.

(** The [EmailStr] validator (package email-validator): [None] when the
    string is not a syntactically valid address, else the normalised
    address. *)
Variable validate_email : pystr -> option pystr.

(** [schemas.ContactMessage]: the document model and its constructor,
    called with the dumped payload as keyword arguments; it may raise. *)
Variable Doc : Type.
Variable ContactMessage : dict -> result exn Doc.

(** One call [create_document(collection_name, data)]. *)
Definition call : Type := pystr * Doc.

(** [database.create_document]: what it answers may depend on the calls
    made before. *)
Variable create_document : pystr -> Doc -> list call -> result exn pystr.

(** Calling the collaborator: the call is logged whether it returns or
    raises. *)
Definition call_create_document (collection_name : pystr) (data : Doc)
  : M exn (list call) pystr :=
  fun log => (create_document collection_name data log,
              log ++ [(collection_name, data)]).

(** Validation of the body against [ContactIn]. *)
Definition ContactIn_validate (body : gmap string jvalue) : option ContactIn :=
  n ← field_str (body !! "name");
  e ← field_str (body !! "email") ≫= validate_email;
  s ← field_str (body !! "subject");
  m ← field_str (body !! "message");
  src ← field_optional_str (body !! "source");
  Some {| name := n; email := e; subject := s; message := m; source := src |}.

(** [submit_contact(payload)] *)
Definition submit_contact (payload : ContactIn)
  : M HTTPException (list call) dict :=
  try_except
    (doc ← lift (ContactMessage (ContactIn_dump payload));
     inserted_id ← call_create_document (py "contactmessage") doc;
     mret (<["status" := PStr (py "ok")]> (<["id" := PStr inserted_id]> ∅)))
    (fun e => raise {| status_code := 500; detail := exn_str e |}).

(** [@app.post("/api/contact")] with a [ContactIn] parameter: the body is
    validated first and the function is called only with a valid payload. *)
Definition post_api_contact (body : gmap string jvalue) (log : list call)
  : reply * list call :=
  match ContactIn_validate body with
  | None => (RequestValidationError, log)
  | Some payload =>
      match submit_contact payload log with
      | (Ok r, log') => (JSONResponse r, log')
      | (Raise h, log') => (ErrorResponse (status_code h) (detail h), log')
      end
  end.

End Contact.

(** ** Diagnostics (lines 99-141) *)

(** The handle [database.db] when it is not [None], by what each of the
    three things the handler does with it yields.
    - [hasattr(db, 'name')]: true, false (the lookup raised an
      [AttributeError]), or any other exception of the lookup, which
      [hasattr] lets through;
    - [db.name]: the value, or an exception;
    - [db.list_collection_names()]: a list of names, or an exception (a
      result that cannot be sliced raises at the next line, inside the same
      [try]). *)
Record db_handle := {
  db_hasattr_name : result exn bool;
  db_name : result exn pyval;
  list_collection_names : result exn (list pystr)
}.

(** What [from database import db] does. *)
Inductive database_module :=
  | ImportRaises (e : exn)
  | Imported (db : option db_handle).

Definition import_db (dbm : database_module) : result exn (option db_handle) :=
  match dbm with
  | ImportRaises e => Raise e
  | Imported db => Ok db
  end.

(** [db.name if hasattr(db, 'name') else <check mark> Connected] (line 118):
    the test is evaluated first, the attribute only when the test is
    true; either may raise. *)
Definition name_or_default (db : db_handle) : result exn pyval :=
  match db_hasattr_name db with
  | Ok true => db_name db
  | Ok false => Ok (PStr (CHECK_MARK ++ py " Connected"))
  | Raise e => Raise e
  end.

(** [response[key] = value] *)
Definition setitem (key : string) (value : pyval) : M exn dict unit :=
  modify (insert key value).

Definition initial_response : dict :=
  <["backend" := PStr (CHECK_MARK ++ py " Running")]>
  (<["database" := PStr (CROSS_MARK ++ py " Not Available")]>
  (<["database_url" := PNone]>
  (<["database_name" := PNone]>
  (<["connection_status" := PStr (py "Not Connected")]>
  (<["collections" := PList []]> ∅))))).

Section Diagnostics.

Variable dbm : database_module.

(** [os.getenv] *)
Variable getenv : string -> option pystr.

(** The [try] statement of lines 111-134. *)
Definition probe_database : M exn dict unit :=
  try_except
    (db ← lift (import_db dbm);
     match db with
     | Some db =>
         setitem "database" (PStr (CHECK_MARK ++ py " Available"));;
         setitem "database_url" (PStr (CHECK_MARK ++ py " Configured"));;
         v ← lift (name_or_default db);
         setitem "database_name" v;;
         setitem "connection_status" (PStr (py "Connected"));;
         try_except
           (collections ← lift (list_collection_names db);
            setitem "collections" (PList (take 10 collections));;
            setitem "database" (PStr (CHECK_MARK ++ py " Connected & Working")))
           (fun e =>
              setitem "database"
                (PStr (WARNING_SIGN ++ py "  Connected but Error: "
                       ++ slice_to 50 (exn_str e))))
     | None =>
         setitem "database"
           (PStr (WARNING_SIGN ++ py "  Available but not initialized"))
     end)
    (fun e =>
       if is_import_error e
       then setitem "database"
              (PStr (CROSS_MARK
                     ++ py " Database module not found (run enable-database first)"))
       else setitem "database"
              (PStr (CROSS_MARK ++ py " Error: " ++ slice_to 50 (exn_str e)))).

(** [test_database()], as a computation on the [response] dict. *)
Definition test_database_body : M exn dict dict :=
  probe_database;;
  setitem "database_url"
    (PStr (if opt_truthy (getenv "DATABASE_URL")
           then CHECK_MARK ++ py " Set" else CROSS_MARK ++ py " Not Set"));;
  setitem "database_name"
    (PStr (if opt_truthy (getenv "DATABASE_NAME")
           then CHECK_MARK ++ py " Set" else CROSS_MARK ++ py " Not Set"));;
  get.

(** [test_database()]: the local [response] starts as the literal of lines
    102-109. *)
Definition test_database : result exn dict :=
  fst (test_database_body initial_response).

End Diagnostics.

(** ** Collaborators and inputs used in the examples *)

(** A lowering table that leaves strings with non-ASCII characters alone. *)
Definition no_unicode_lower (s : pystr) : pystr := s.

(** An address check that only asks for an at sign. *)
Definition needs_at_sign (s : pystr) : option pystr :=
  if bool_decide (64 ∈ s) then Some s else None.

(** A document model that keeps the keyword arguments as they are. *)
Definition doc_of_kwargs (kwargs : dict) : result exn dict := Ok kwargs.

(** A store that is down, and one that answers with a fixed identifier. *)
Definition store_down (c : pystr) (d : dict) (log : list (pystr * dict))
  : result exn pystr :=
  Raise {| is_import_error := false; exn_str := py "Database not available" |}.

Definition store_up (c : pystr) (d : dict) (log : list (pystr * dict))
  : result exn pystr :=
  Ok (py "65f0c2a1e4b0a1b2c3d4e5f6").

Definition good_body : gmap string jvalue :=
  <["name" := JString (py "Ada")]>
  (<["email" := JString (py "ada@example.org")]>
  (<["subject" := JString (py "Hello")]>
  (<["message" := JString (py "Nice site")]> ∅))).

Definition no_subject_body : gmap string jvalue :=
  delete "subject" good_body.

Definition bad_email_body : gmap string jvalue :=
  <["email" := JString (py "ada.example.org")]> good_body.

Definition good_payload : ContactIn :=
  {| name := py "Ada"; email := py "ada@example.org"; subject := py "Hello";
     message := py "Nice site"; source := None |}.

Definition live_db : db_handle :=
  {| db_hasattr_name := Ok true;
     db_name := Ok (PStr (py "portfolio"));
     list_collection_names := Ok [py "contactmessage"] |}.

(** The exception of a failed import of the module. *)
Definition module_absent : exn :=
  {| is_import_error := true; exn_str := py "No module named 'database'" |}.

(** [DATABASE_URL] is set, to the empty string. *)
Definition env_url_empty (k : string) : option pystr :=
  if bool_decide (k = "DATABASE_URL") then Some [] else None.

Definition env_url_given (k : string) : option pystr :=
  if bool_decide (k = "DATABASE_URL") then Some (py "mongodb://localhost")
  else None.

#[global] Instance Category_eq_dec : EqDecision Category.
Proof. solve_decision. Defined.

(** A document model that refuses every payload. *)
Definition doc_refused (kwargs : dict) : result exn dict :=
  Raise {| is_import_error := false;
           exn_str := py "1 validation error for ContactMessage" |}.

(** A body with a key that [ContactIn] does not declare. *)
Definition body_with_extra : gmap string jvalue :=
  <["newsletter" := JBool true]> good_body.


(** A handle without a [name] attribute. *)
Definition nameless_db : db_handle :=
  {| db_hasattr_name := Ok false;
     db_name := Raise {| is_import_error := false;
                         exn_str := py "'Database' object has no attribute 'name'" |};
     list_collection_names := Ok [py "contactmessage"] |}.

(** A handle whose [name] lookup raises something other than an
    [AttributeError], although the enumeration would return. *)
Definition broken_name_db : db_handle :=
  {| db_hasattr_name := Raise {| is_import_error := false;
                                 exn_str := py "connection closed" |};
     db_name := Raise {| is_import_error := false;
                         exn_str := py "connection closed" |};
     list_collection_names := Ok [py "contactmessage"] |}.

(** A handle whose enumeration fails with a long message. *)
Definition failing_db : db_handle :=
  {| db_hasattr_name := Ok true;
     db_name := Ok (PStr (py "portfolio"));
     list_collection_names :=
       Raise {| is_import_error := false;
                exn_str := py "localhost:27017: [Errno 111] Connection refused, Timeout: 30s, Topology Description: unknown" |} |}.

(** * Properties *)

(** ** Case studies *)

Section CaseStudyFacts.

Variable ul : pystr -> pystr.

Lemma lower_literal_all : lower ul (py "all") = py "all".
Proof. reflexivity. Qed.

Lemma str_truthy_nonempty (s : pystr) : s ≠ [] -> str_truthy s = true.
Proof. by destruct s. Qed.

(** Every spelling of "all" in ASCII letters is a case variant of it. *)
Lemma ascii_variants_of_all :
  Forall (fun c => ci_equal ul c (py "all"))
    [py "all"; py "All"; py "aLl"; py "alL"; py "ALl"; py "AlL"; py "aLL";
     py "ALL"].
Proof. repeat constructor. Qed.

(** A filter that matches nothing leaves nothing. *)
Lemma filter_none {A} (P : A -> Prop) `{!forall x, Decision (P x)} (l : list A) :
  (forall x, x ∈ l -> ¬ P x) -> filter P l = [].
Proof.
  induction l as [|x l IH]; intros Hn; [done|].
  rewrite filter_cons_False by (apply Hn; left).
  apply IH. intros y Hy. apply Hn. by right.
Qed.

(** C4. With the category absent, or equal to "all" under case-insensitive
    comparison, [list_case_studies] returns the whole fixed list in its
    defined order. *)
Theorem list_case_studies_all (q : option pystr) :
  q = None ∨ (exists c, q = Some c ∧ ci_equal ul c (py "all")) ->
  list_case_studies ul q = model_dump <$> CASE_STUDIES.
Proof.
  intros [-> | (c & -> & Hc)]; [done|].
  unfold list_case_studies.
  unfold ci_equal in Hc. rewrite lower_literal_all in Hc.
  rewrite (bool_decide_eq_true_2 _ Hc). by rewrite orb_true_r.
Qed.

(** C10. The empty string as category is no filter: the whole fixed list
    is returned, the same as with the category absent. *)
Theorem list_case_studies_empty_string :
  list_case_studies ul (Some []) = list_case_studies ul None
  ∧ list_case_studies ul (Some []) = model_dump <$> CASE_STUDIES.
Proof. split; reflexivity. Qed.

(** C3, amended. For a non-empty category that is not a case variant of
    "all", [list_case_studies] returns exactly the case studies whose
    category equals it under case-insensitive comparison, in the order of
    the fixed list; when none matches the result is empty. *)
Theorem list_case_studies_filter (c : pystr) :
  c ≠ [] ->
  ¬ ci_equal ul c (py "all") ->
  list_case_studies ul (Some c)
    = model_dump <$>
        filter (fun cs => ci_equal ul (Category_str (category cs)) c)
          CASE_STUDIES
  ∧ list_case_studies ul (Some c) `sublist_of` (model_dump <$> CASE_STUDIES)
  ∧ ((forall cs, cs ∈ CASE_STUDIES ->
        ¬ ci_equal ul (Category_str (category cs)) c) ->
     list_case_studies ul (Some c) = []).
Proof.
  intros Hne Hall.
  assert (Heq : list_case_studies ul (Some c)
    = model_dump <$>
        filter (fun cs => ci_equal ul (Category_str (category cs)) c)
          CASE_STUDIES).
  { unfold list_case_studies.
    rewrite (str_truthy_nonempty _ Hne). simpl negb.
    unfold ci_equal in Hall. rewrite lower_literal_all in Hall.
    by rewrite (bool_decide_eq_false_2 _ Hall). }
  split; [exact Heq|]. split.
  - rewrite Heq. apply fmap_sublist, sublist_filter.
  - intros Hnone. rewrite Heq. by rewrite (filter_none _ _ Hnone).
Qed.

End CaseStudyFacts.

(** The example of the specification: "lead gen" selects the two lead
    generation studies, in their order. *)
Example list_case_studies_lead_gen :
  (fun d => d !! "title") <$> list_case_studies no_unicode_lower (Some (py "lead gen"))
  = [Some (PStr (py "Dobrosvit")); Some (PStr (py "Fertility Therapy"))].
Proof. vm_compute. reflexivity. Qed.

Lemma list_case_studies_all_witness :
  list_case_studies no_unicode_lower (Some (py "ALL"))
  = model_dump <$> CASE_STUDIES.
Proof.
  apply (list_case_studies_all no_unicode_lower (Some (py "ALL"))).
  right. exists (py "ALL"). split; reflexivity.
Defined.

Lemma list_case_studies_filter_witness :
  list_case_studies no_unicode_lower (Some (py "LEAD GEN"))
  = model_dump <$>
      filter (fun cs => ci_equal no_unicode_lower (Category_str (category cs))
                          (py "LEAD GEN")) CASE_STUDIES.
Proof.
  apply (list_case_studies_filter no_unicode_lower (py "LEAD GEN")).
  - discriminate.
  - vm_compute. discriminate.
Defined.

(** C3 as stated fails at the empty string: it is not absent and not a
    case variant of "all", no case study has the empty category, and yet
    the whole list comes back. *)
Lemma list_case_studies_empty_not_filtered :
  ¬ ci_equal no_unicode_lower [] (py "all")
  ∧ filter (fun cs => ci_equal no_unicode_lower (Category_str (category cs)) [])
      CASE_STUDIES = []
  ∧ length (list_case_studies no_unicode_lower (Some [])) = 3%nat
  ∧ list_case_studies no_unicode_lower (Some [])
    ≠ model_dump <$>
        filter (fun cs => ci_equal no_unicode_lower (Category_str (category cs)) [])
          CASE_STUDIES.
Proof.
  split; [vm_compute; discriminate|].
  split; [reflexivity|].
  split; [reflexivity|].
  intros H. apply (f_equal length) in H. vm_compute in H. discriminate.
Qed.

(** ** Contact submission *)

Section ContactFacts.

Variable validate_email : pystr -> option pystr.
Variable Doc : Type.
Variable ContactMessage : dict -> result exn Doc.
Variable create_document : pystr -> Doc -> list (call Doc) -> result exn pystr.

Local Abbreviation validate := (ContactIn_validate validate_email).
Local Abbreviation post :=
  (post_api_contact validate_email Doc ContactMessage create_document).

(** The body of [submit_contact], case by case. *)
Lemma submit_contact_cases (payload : ContactIn) (log : list (call Doc)) :
  submit_contact Doc ContactMessage create_document payload log =
    match ContactMessage (ContactIn_dump payload) with
    | Raise e => (Raise {| status_code := 500; detail := exn_str e |}, log)
    | Ok doc =>
        match create_document (py "contactmessage") doc log with
        | Raise e => (Raise {| status_code := 500; detail := exn_str e |},
                      log ++ [(py "contactmessage", doc)])
        | Ok inserted_id =>
            (Ok (<["status" := PStr (py "ok")]>
                   (<["id" := PStr inserted_id]> ∅)),
             log ++ [(py "contactmessage", doc)])
        end
    end.
Proof.
  unfold submit_contact, try_except, mbind, M_bind, bind, lift,
    call_create_document, raise.
  destruct (ContactMessage _) as [doc|e]; [|done].
  by destruct (create_document _ _ _).
Qed.

Lemma rejected_before_handler (body : gmap string jvalue) (log : list (call Doc)) :
  validate body = None -> post body log = (RequestValidationError, log).
Proof. unfold post_api_contact. by intros ->. Qed.

Lemma required_field_checked (body : gmap string jvalue) (f : string) :
  f ∈ ["name"; "email"; "subject"; "message"] ->
  field_str (body !! f) = None ->
  validate body = None.
Proof.
  intros Hf Hnone. unfold ContactIn_validate.
  repeat (apply elem_of_cons in Hf as [->|Hf]); [..|by apply elem_of_nil in Hf];
    rewrite ?Hnone; simpl;
    repeat (match goal with
            | |- context [field_str (body !! ?k)] =>
                lazymatch k with
                | _ => destruct (field_str (body !! k)) eqn:?; simpl
                end
            | |- context [validate_email ?s] =>
                destruct (validate_email s) eqn:?; simpl
            end; try done); congruence.
Qed.

Lemma invalid_email_checked (body : gmap string jvalue) (s : pystr) :
  body !! "email" = Some (JString s) ->
  validate_email s = None ->
  validate body = None.
Proof.
  intros He Hs. unfold ContactIn_validate. rewrite He. simpl. rewrite Hs.
  by destruct (field_str (body !! "name")).
Qed.

(** The handler calls the store at most once, whatever happens. *)
Lemma at_most_one_call (body : gmap string jvalue) (log : list (call Doc)) :
  exists calls, snd (post body log) = log ++ calls ∧ (length calls <= 1)%nat.
Proof.
  unfold post_api_contact. destruct (validate body) as [payload|].
  - rewrite submit_contact_cases.
    destruct (ContactMessage _) as [doc|e].
    + exists [(py "contactmessage", doc)].
      destruct (create_document _ _ _); simpl; split; [done|lia|done|lia].
    + exists []. rewrite app_nil_r. simpl. split; [done|lia].
  - exists []. rewrite app_nil_r. simpl. split; [done|lia].
Qed.

(** C1. A body with a required string field missing (or not a string), or
    with an email that is not a valid address, is answered with the
    validation error, a client error, and the store has not been called. *)
Theorem malformed_payload_rejected
    (body : gmap string jvalue) (log : list (call Doc)) :
  (exists f, f ∈ ["name"; "email"; "subject"; "message"]
             ∧ field_str (body !! f) = None)
  ∨ (exists s, body !! "email" = Some (JString s) ∧ validate_email s = None) ->
  post body log = (RequestValidationError, log)
  ∧ is_client_error (fst (post body log)) = true.
Proof.
  intros H.
  assert (Hv : validate body = None).
  { destruct H as [(f & Hf & Hnone) | (s & He & Hs)];
      eauto using required_field_checked, invalid_email_checked. }
  by rewrite (rejected_before_handler _ _ Hv).
Qed.

(** C7. With an email that is not a valid address the store is not
    called: the log of calls is what it was. *)
Theorem invalid_email_no_write
    (body : gmap string jvalue) (s : pystr) (log : list (call Doc)) :
  body !! "email" = Some (JString s) ->
  validate_email s = None ->
  snd (post body log) = log
  ∧ fst (post body log) = RequestValidationError.
Proof.
  intros He Hs.
  by rewrite (rejected_before_handler _ _ (invalid_email_checked _ _ He Hs)).
Qed.


(** C5. When [create_document] raises on a valid payload, the handler
    answers with a server error whose detail is the message of that
    exception, after that one call; and no call of the handler makes more
    than one call to the store. *)
Theorem persistence_error_surfaced
    (body : gmap string jvalue) (payload : ContactIn) (doc : Doc)
    (e : exn) (log : list (call Doc)) :
  validate body = Some payload ->
  ContactMessage (ContactIn_dump payload) = Ok doc ->
  create_document (py "contactmessage") doc log = Raise e ->
  post body log
    = (ErrorResponse 500 (exn_str e), log ++ [(py "contactmessage", doc)])
  ∧ is_server_error (fst (post body log)) = true
  ∧ (forall body' log',
       exists calls, snd (post body' log') = log' ++ calls
                     ∧ (length calls <= 1)%nat).
Proof.
  intros Hv Hdoc He.
  assert (Heq : post body log
    = (ErrorResponse 500 (exn_str e), log ++ [(py "contactmessage", doc)])).
  { unfold post_api_contact. rewrite Hv, submit_contact_cases, Hdoc, He.
    done. }
  rewrite Heq. split; [done|]. split; [done|].
  apply at_most_one_call.
Qed.

End ContactFacts.

Lemma malformed_payload_rejected_witness :
  post_api_contact needs_at_sign dict doc_of_kwargs store_up no_subject_body []
    = (RequestValidationError, [])
  ∧ is_client_error
      (fst (post_api_contact needs_at_sign dict doc_of_kwargs store_up
              no_subject_body [])) = true.
Proof.
  apply (malformed_payload_rejected needs_at_sign dict doc_of_kwargs store_up
           no_subject_body []).
  left. exists "subject". split; [set_solver|]. vm_compute. reflexivity.
Defined.

Lemma invalid_email_no_write_witness :
  snd (post_api_contact needs_at_sign dict doc_of_kwargs store_up
         bad_email_body []) = []
  ∧ fst (post_api_contact needs_at_sign dict doc_of_kwargs store_up
           bad_email_body []) = RequestValidationError.
Proof.
  apply (invalid_email_no_write needs_at_sign dict doc_of_kwargs store_up
           bad_email_body (py "ada.example.org") []).
  - vm_compute. reflexivity.
  - vm_compute. reflexivity.
Defined.



Lemma persistence_error_surfaced_witness :
  post_api_contact needs_at_sign dict doc_of_kwargs store_down good_body []
  = (ErrorResponse 500 (py "Database not available"),
     [(py "contactmessage", ContactIn_dump good_payload)]).
Proof.
  apply (persistence_error_surfaced needs_at_sign dict doc_of_kwargs store_down
           good_body good_payload (ContactIn_dump good_payload)
           {| is_import_error := false;
              exn_str := py "Database not available" |} []).
  - vm_compute. reflexivity.
  - reflexivity.
  - reflexivity.
Defined.

(** ** Diagnostics *)

Section DiagnosticsFacts.

Variable getenv : string -> option pystr.

Ltac run_probe :=
  unfold probe_database, try_except, mbind, M_bind, bind, lift, setitem,
    modify, import_db.

(** The five ways through the [try] statement of [test_database]. *)
Lemma probe_module_not_found (e : exn) (response : dict) :
  is_import_error e = true ->
  probe_database (ImportRaises e) response
  = (Ok tt,
     <["database" :=
         PStr (CROSS_MARK
               ++ py " Database module not found (run enable-database first)")]>
       response).
Proof. intros He. run_probe. by rewrite He. Qed.

Lemma probe_import_failed (e : exn) (response : dict) :
  is_import_error e = false ->
  probe_database (ImportRaises e) response
  = (Ok tt,
     <["database" :=
         PStr (CROSS_MARK ++ py " Error: " ++ slice_to 50 (exn_str e))]>
       response).
Proof. intros He. run_probe. by rewrite He. Qed.

Lemma probe_not_initialized (response : dict) :
  probe_database (Imported None) response
  = (Ok tt,
     <["database" :=
         PStr (WARNING_SIGN ++ py "  Available but not initialized")]>
       response).
Proof. reflexivity. Qed.

(** What the handler has written when the enumeration returns. *)
Lemma probe_working
    (db : db_handle) (v : pyval) (names : list pystr) (response : dict) :
  name_or_default db = Ok v ->
  list_collection_names db = Ok names ->
  probe_database (Imported (Some db)) response
  = (Ok tt,
     <["database" := PStr (CHECK_MARK ++ py " Connected & Working")]>
     (<["collections" := PList (take 10 names)]>
     (<["connection_status" := PStr (py "Connected")]>
     (<["database_name" := v]>
     (<["database_url" := PStr (CHECK_MARK ++ py " Configured")]>
     (<["database" := PStr (CHECK_MARK ++ py " Available")]> response)))))).
Proof. intros Hv Hn. run_probe. by rewrite Hv, Hn. Qed.

Lemma probe_enumeration_failed
    (db : db_handle) (v : pyval) (e : exn) (response : dict) :
  name_or_default db = Ok v ->
  list_collection_names db = Raise e ->
  probe_database (Imported (Some db)) response
  = (Ok tt,
     <["database" :=
         PStr (WARNING_SIGN ++ py "  Connected but Error: "
               ++ slice_to 50 (exn_str e))]>
     (<["connection_status" := PStr (py "Connected")]>
     (<["database_name" := v]>
     (<["database_url" := PStr (CHECK_MARK ++ py " Configured")]>
     (<["database" := PStr (CHECK_MARK ++ py " Available")]> response))))).
Proof. intros Hv Hn. run_probe. by rewrite Hv, Hn. Qed.

(** The [name] lookup raised: lines 119-127 are skipped and the outer
    handlers decide the status. *)
Lemma probe_name_import_error (db : db_handle) (e : exn) (response : dict) :
  name_or_default db = Raise e ->
  is_import_error e = true ->
  probe_database (Imported (Some db)) response
  = (Ok tt,
     <["database" :=
         PStr (CROSS_MARK
               ++ py " Database module not found (run enable-database first)")]>
     (<["database_url" := PStr (CHECK_MARK ++ py " Configured")]>
     (<["database" := PStr (CHECK_MARK ++ py " Available")]> response))).
Proof. intros Hv He. run_probe. by rewrite Hv, He. Qed.

Lemma probe_name_failed (db : db_handle) (e : exn) (response : dict) :
  name_or_default db = Raise e ->
  is_import_error e = false ->
  probe_database (Imported (Some db)) response
  = (Ok tt,
     <["database" :=
         PStr (CROSS_MARK ++ py " Error: " ++ slice_to 50 (exn_str e))]>
     (<["database_url" := PStr (CHECK_MARK ++ py " Configured")]>
     (<["database" := PStr (CHECK_MARK ++ py " Available")]> response))).
Proof. intros Hv He. run_probe. by rewrite Hv, He. Qed.

(** The probe never raises. *)
Lemma probe_database_returns (dbm : database_module) (response : dict) :
  exists response', probe_database dbm response = (Ok tt, response').
Proof.
  destruct dbm as [e|[db|]].
  - destruct (is_import_error e) eqn:He;
      eauto using probe_module_not_found, probe_import_failed.
  - destruct (name_or_default db) as [v|e] eqn:Hv.
    + destruct (list_collection_names db) eqn:Hn;
        eauto using probe_working, probe_enumeration_failed.
    + destruct (is_import_error e) eqn:He;
        eauto using probe_name_import_error, probe_name_failed.
  - eauto using probe_not_initialized.
Qed.

(** After the probe, the environment is reported and the dict returned. *)
Lemma test_database_after_probe (dbm : database_module) (response : dict) :
  probe_database dbm initial_response = (Ok tt, response) ->
  test_database dbm getenv
  = Ok (<["database_name" :=
            PStr (if opt_truthy (getenv "DATABASE_NAME")
                  then CHECK_MARK ++ py " Set"
                  else CROSS_MARK ++ py " Not Set")]>
        (<["database_url" :=
            PStr (if opt_truthy (getenv "DATABASE_URL")
                  then CHECK_MARK ++ py " Set"
                  else CROSS_MARK ++ py " Not Set")]>
         response)).
Proof.
  intros Hp. unfold test_database, test_database_body, mbind, M_bind, bind.
  by rewrite Hp.
Qed.

(** The two environment fields of the report, whatever the probe did. *)
Lemma test_database_env_fields (dbm : database_module) :
  exists r,
    test_database dbm getenv = Ok r
    ∧ r !! "database_url"
      = Some (PStr (if opt_truthy (getenv "DATABASE_URL")
                    then CHECK_MARK ++ py " Set"
                    else CROSS_MARK ++ py " Not Set"))
    ∧ r !! "database_name"
      = Some (PStr (if opt_truthy (getenv "DATABASE_NAME")
                    then CHECK_MARK ++ py " Set"
                    else CROSS_MARK ++ py " Not Set")).
Proof.
  destruct (probe_database_returns dbm initial_response) as [response Hp].
  rewrite (test_database_after_probe _ _ Hp).
  eexists. split; [reflexivity|]. by simplify_map_eq.
Qed.

(** Case analysis on what the database module and the handle do, each case
    rewritten to the dict that [test_database] returns. *)
Ltac report_cases dbm :=
  let e := fresh "e" in
  let db := fresh "db" in
  let v := fresh "v" in
  let names := fresh "names" in
  let He := fresh "He" in
  let Hv := fresh "Hv" in
  let Hn := fresh "Hn" in
  destruct dbm as [e|[db|]];
  [ destruct (is_import_error e) eqn:He;
    [ rewrite (test_database_after_probe _ _
                 (probe_module_not_found _ initial_response He))
    | rewrite (test_database_after_probe _ _
                 (probe_import_failed _ initial_response He)) ]
  | destruct (name_or_default db) as [v|e] eqn:Hv;
    [ destruct (list_collection_names db) as [names|e] eqn:Hn;
      [ rewrite (test_database_after_probe _ _
                   (probe_working _ _ _ initial_response Hv Hn))
      | rewrite (test_database_after_probe _ _
                   (probe_enumeration_failed _ _ _ initial_response Hv Hn)) ]
    | destruct (is_import_error e) eqn:He;
      [ rewrite (test_database_after_probe _ _
                   (probe_name_import_error _ _ initial_response Hv He))
      | rewrite (test_database_after_probe _ _
                   (probe_name_failed _ _ initial_response Hv He)) ] ]
  | rewrite (test_database_after_probe _ _
               (probe_not_initialized initial_response)) ].

(** C6. [test_database] never raises: whatever the import of the database
    module does and whatever the handle does (its [name] lookup and its
    enumeration may each return or raise), it returns a dict whose
    "database" entry is one of the five status strings of the handler, a
    mark followed by a text. *)
Theorem test_database_never_raises (dbm : database_module) :
  exists r s,
    test_database dbm getenv = Ok r
    ∧ r !! "database" = Some (PStr s)
    ∧ (s = CROSS_MARK
           ++ py " Database module not found (run enable-database first)"
       ∨ (exists e, s = CROSS_MARK ++ py " Error: " ++ slice_to 50 (exn_str e))
       ∨ s = WARNING_SIGN ++ py "  Available but not initialized"
       ∨ (exists e, s = WARNING_SIGN ++ py "  Connected but Error: "
                        ++ slice_to 50 (exn_str e))
       ∨ s = CHECK_MARK ++ py " Connected & Working")
    ∧ exists mark text,
        s = mark ++ text
        ∧ mark ∈ [CHECK_MARK; WARNING_SIGN; CROSS_MARK]
        ∧ text ≠ [].
Proof.
  report_cases dbm; eexists _, _; (split; [reflexivity|]);
    (split;
       [rewrite lookup_insert_ne, lookup_insert_ne, lookup_insert_eq by done;
        reflexivity|]);
    (split;
       [first [ by left
              | by right; left; eexists
              | by do 2 right; left
              | by do 3 right; left; eexists
              | by do 4 right ]|]);
    first [ eexists CROSS_MARK, _; split; [reflexivity|]
          | eexists WARNING_SIGN, _; split; [reflexivity|]
          | eexists CHECK_MARK, _; split; [reflexivity|] ];
    (split; [set_solver|done]).
Qed.

(** C8. With the handle initialised and the enumeration reached (the
    [name] lookup of line 118 returned): when the enumeration returns, the
    "collections" entry is the first ten names at most, a prefix of the
    enumerated list; when it raises, the status string says so and the
    "collections" entry is still the empty list. *)
Theorem collections_report (db : db_handle) (v : pyval) :
  name_or_default db = Ok v ->
  exists r,
    test_database (Imported (Some db)) getenv = Ok r
    ∧ match list_collection_names db with
      | Ok names =>
          exists shown,
            r !! "collections" = Some (PList shown)
            ∧ shown = take 10 names
            ∧ shown `prefix_of` names
            ∧ (length shown <= 10)%nat
            ∧ r !! "database"
              = Some (PStr (CHECK_MARK ++ py " Connected & Working"))
      | Raise e =>
          r !! "collections" = Some (PList [])
          ∧ r !! "database"
            = Some (PStr (WARNING_SIGN ++ py "  Connected but Error: "
                          ++ slice_to 50 (exn_str e)))
      end.
Proof.
  intros Hv. destruct (list_collection_names db) as [names|e] eqn:Hn.
  - rewrite (test_database_after_probe _ _
               (probe_working _ _ _ initial_response Hv Hn)).
    eexists. split; [reflexivity|]. exists (take 10 names).
    split; [by simplify_map_eq|]. split; [done|].
    split; [apply prefix_take|]. split; [|by simplify_map_eq].
    rewrite length_take. lia.
  - rewrite (test_database_after_probe _ _
               (probe_enumeration_failed _ _ _ initial_response Hv Hn)).
    eexists. split; [reflexivity|]. split; by simplify_map_eq.
Qed.

End DiagnosticsFacts.

Lemma collections_report_witness :
  exists r,
    test_database (Imported (Some live_db)) env_url_given = Ok r
    ∧ match list_collection_names live_db with
      | Ok names =>
          exists shown,
            r !! "collections" = Some (PList shown)
            ∧ shown = take 10 names
            ∧ shown `prefix_of` names
            ∧ (length shown <= 10)%nat
            ∧ r !! "database"
              = Some (PStr (CHECK_MARK ++ py " Connected & Working"))
      | Raise e =>
          r !! "collections" = Some (PList [])
          ∧ r !! "database"
            = Some (PStr (WARNING_SIGN ++ py "  Connected but Error: "
                          ++ slice_to 50 (exn_str e)))
      end.
Proof.
  apply (collections_report env_url_given live_db (PStr (py "portfolio"))).
  reflexivity.
Defined.

(** C9, amended. The "database_url" and "database_name" entries of the
    report depend only on whether [DATABASE_URL] and [DATABASE_NAME] are
    set to a non-empty value: two runs that agree on that give the same two
    entries, whatever the database module does in each. *)
Theorem env_fields_independent
    (dbm1 dbm2 : database_module) (getenv1 getenv2 : string -> option pystr) :
  opt_truthy (getenv1 "DATABASE_URL") = opt_truthy (getenv2 "DATABASE_URL") ->
  opt_truthy (getenv1 "DATABASE_NAME") = opt_truthy (getenv2 "DATABASE_NAME") ->
  exists r1 r2,
    test_database dbm1 getenv1 = Ok r1
    ∧ test_database dbm2 getenv2 = Ok r2
    ∧ r1 !! "database_url" = r2 !! "database_url"
    ∧ r1 !! "database_name" = r2 !! "database_name".
Proof.
  intros Hurl Hname.
  destruct (test_database_env_fields getenv1 dbm1) as (r1 & H1 & Hu1 & Hn1).
  destruct (test_database_env_fields getenv2 dbm2) as (r2 & H2 & Hu2 & Hn2).
  exists r1, r2. rewrite Hu1, Hu2, Hn1, Hn2, Hurl, Hname. done.
Qed.

Lemma env_fields_independent_witness :
  exists r1 r2,
    test_database (ImportRaises module_absent) env_url_given = Ok r1
    ∧ test_database (Imported (Some live_db)) env_url_given = Ok r2
    ∧ r1 !! "database_url" = r2 !! "database_url"
    ∧ r1 !! "database_name" = r2 !! "database_name".
Proof.
  apply (env_fields_independent (ImportRaises module_absent)
           (Imported (Some live_db)) env_url_given env_url_given);
    reflexivity.
Defined.

(** C9 as stated fails when a variable is set to the empty string: in both
    runs [DATABASE_URL] is present and [DATABASE_NAME] is not, and the
    "database_url" entries differ. *)
Lemma env_presence_not_enough :
  (forall k, is_Some (env_url_empty k) <-> is_Some (env_url_given k))
  ∧ exists r1 r2,
      test_database (ImportRaises module_absent) env_url_empty = Ok r1
      ∧ test_database (Imported (Some live_db)) env_url_given = Ok r2
      ∧ r1 !! "database_url" = Some (PStr (CROSS_MARK ++ py " Not Set"))
      ∧ r2 !! "database_url" = Some (PStr (CHECK_MARK ++ py " Set"))
      ∧ r1 !! "database_url" ≠ r2 !! "database_url".
Proof.
  split.
  - intros k. unfold env_url_empty, env_url_given.
    case_bool_decide; split; intros [x Hx]; eauto; discriminate.
  - destruct (test_database_env_fields env_url_empty
                (ImportRaises module_absent)) as (r1 & H1 & Hu1 & _).
    destruct (test_database_env_fields env_url_given
                (Imported (Some live_db))) as (r2 & H2 & Hu2 & _).
    exists r1, r2. rewrite Hu1, Hu2.
    repeat split; done.
Qed.

(** * Further properties of the handlers *)

(** ** Case studies *)

Section CaseStudyMore.

Variable ul : pystr -> pystr.

(** X1. Whatever the category, [list_case_studies] returns a subsequence
    of the dumped fixed list: nothing is invented, repeated or reordered. *)
Theorem list_case_studies_sublist (q : option pystr) :
  list_case_studies ul q `sublist_of` (model_dump <$> CASE_STUDIES).
Proof.
  unfold list_case_studies. destruct q as [c|]; [|done].
  destruct (negb (str_truthy c) || bool_decide (lower ul c = py "all"));
    [done|].
  apply fmap_sublist, sublist_filter.
Qed.

(** X2. The answer depends on a non-empty category only through its
    lowered form: two non-empty categories that are equal under
    case-insensitive comparison get the same answer. *)
Theorem list_case_studies_case_insensitive (c1 c2 : pystr) :
  c1 ≠ [] -> c2 ≠ [] -> ci_equal ul c1 c2 ->
  list_case_studies ul (Some c1) = list_case_studies ul (Some c2).
Proof.
  intros H1 H2 Heq. unfold list_case_studies.
  rewrite (str_truthy_nonempty _ H1), (str_truthy_nonempty _ H2).
  unfold ci_equal in Heq.
  assert (Hb : bool_decide (lower ul c1 = py "all")
               = bool_decide (lower ul c2 = py "all"))
    by (apply bool_decide_ext; by rewrite Heq).
  rewrite Hb. destruct (bool_decide (lower ul c2 = py "all")); [done|].
  simpl. f_equal. apply list_filter_iff. intros cs. by rewrite Heq.
Qed.

(** The lowered category strings tell the categories apart. *)
Lemma lower_Category_str_inj (k1 k2 : Category) :
  lower ul (Category_str k1) = lower ul (Category_str k2) -> k1 = k2.
Proof. destruct k1, k2; first [done | intros H; vm_compute in H; discriminate]. Qed.

(** X3. Comparing lowered strings selects by category: a non-empty query
    that is a case variant of the string of category [k] returns the case
    studies of category [k], except that the category "All" returns the
    whole list. *)
Theorem list_case_studies_by_category (k : Category) (q : pystr) :
  q ≠ [] ->
  ci_equal ul q (Category_str k) ->
  list_case_studies ul (Some q)
  = model_dump <$>
      (if decide (k = All) then CASE_STUDIES
       else filter (fun cs => category cs = k) CASE_STUDIES).
Proof.
  intros Hne Hq. unfold list_case_studies.
  rewrite (str_truthy_nonempty _ Hne). unfold ci_equal in Hq.
  destruct (decide (k = All)) as [->|Hk].
  - by rewrite (bool_decide_eq_true_2 _ Hq).
  - rewrite bool_decide_eq_false_2.
    + simpl. f_equal. apply list_filter_iff. intros cs. rewrite Hq. split.
      * apply lower_Category_str_inj.
      * by intros ->.
    + rewrite Hq. intros Hall. apply Hk.
      by apply lower_Category_str_inj.
Qed.

End CaseStudyMore.

Lemma list_case_studies_case_insensitive_witness :
  list_case_studies no_unicode_lower (Some (py "LEAD gen"))
  = list_case_studies no_unicode_lower (Some (py "Lead Gen")).
Proof.
  apply (list_case_studies_case_insensitive no_unicode_lower
           (py "LEAD gen") (py "Lead Gen")); [discriminate..|reflexivity].
Defined.

Lemma list_case_studies_by_category_witness :
  list_case_studies no_unicode_lower (Some (py "local BUSINESS"))
  = model_dump <$>
      (if decide (LocalBusiness = All) then CASE_STUDIES
       else filter (fun cs => category cs = LocalBusiness) CASE_STUDIES).
Proof.
  apply (list_case_studies_by_category no_unicode_lower LocalBusiness
           (py "local BUSINESS")); [discriminate|reflexivity].
Defined.

(** ** Contact submission *)

Section ContactMore.

Variable validate_email : pystr -> option pystr.
Variable Doc : Type.
Variable ContactMessage : dict -> result exn Doc.
Variable create_document : pystr -> Doc -> list (call Doc) -> result exn pystr.

Local Abbreviation validate := (ContactIn_validate validate_email).
Local Abbreviation post :=
  (post_api_contact validate_email Doc ContactMessage create_document).

(** X6. Keys that [ContactIn] does not declare are ignored: adding one to
    the body changes neither the validation nor the answer. *)
Theorem undeclared_key_ignored
    (body : gmap string jvalue) (k : string) (v : jvalue)
    (log : list (call Doc)) :
  k ∉ ["name"; "email"; "subject"; "message"; "source"] ->
  validate (<[k := v]> body) = validate body
  ∧ post (<[k := v]> body) log = post body log.
Proof.
  intros Hk.
  assert (Hv : validate (<[k := v]> body) = validate body).
  { unfold ContactIn_validate.
    rewrite !lookup_insert_ne by (intros ->; set_solver). done. }
  split; [done|]. unfold post_api_contact. by rewrite Hv.
Qed.

(** X7. A null [source] is the same as no [source]. *)
Theorem null_source_is_absent (body : gmap string jvalue) (log : list (call Doc)) :
  validate (<["source" := JNull]> body) = validate (delete "source" body)
  ∧ post (<["source" := JNull]> body) log = post (delete "source" body) log.
Proof.
  assert (Hv : validate (<["source" := JNull]> body)
               = validate (delete "source" body)).
  { unfold ContactIn_validate.
    rewrite lookup_insert_eq, lookup_delete_eq.
    rewrite !lookup_insert_ne, !lookup_delete_ne by done. done. }
  split; [done|]. unfold post_api_contact. by rewrite Hv.
Qed.

End ContactMore.

Section HandlerMore.

Variable validate_email : pystr -> option pystr.
Variable Doc : Type.
Variable ContactMessage : dict -> result exn Doc.
Variable create_document : pystr -> Doc -> list (call Doc) -> result exn pystr.

Local Abbreviation validate := (ContactIn_validate validate_email).
Local Abbreviation post :=
  (post_api_contact validate_email Doc ContactMessage create_document).

(** The answer and the log, for a body that passed validation. *)
Lemma post_valid_cases
    (body : gmap string jvalue) (p : ContactIn) (log : list (call Doc)) :
  validate body = Some p ->
  post body log =
    match ContactMessage (ContactIn_dump p) with
    | Raise e => (ErrorResponse 500 (exn_str e), log)
    | Ok doc =>
        match create_document (py "contactmessage") doc log with
        | Raise e => (ErrorResponse 500 (exn_str e),
                      log ++ [(py "contactmessage", doc)])
        | Ok inserted_id =>
            (JSONResponse (<["status" := PStr (py "ok")]>
                             (<["id" := PStr inserted_id]> ∅)),
             log ++ [(py "contactmessage", doc)])
        end
    end.
Proof.
  intros Hv. unfold post_api_contact. rewrite Hv, submit_contact_cases.
  destruct (ContactMessage _) as [doc|e]; [|done].
  by destruct (create_document _ _ _).
Qed.

(** X8. When the document model refuses a payload that passed request
    validation, the answer is a server error (500, not 422) whose detail is
    the message of that exception, and the store is not called. *)
Theorem schema_rejection_no_write
    (body : gmap string jvalue) (p : ContactIn) (e : exn)
    (log : list (call Doc)) :
  validate body = Some p ->
  ContactMessage (ContactIn_dump p) = Raise e ->
  post body log = (ErrorResponse 500 (exn_str e), log).
Proof. intros Hv He. by rewrite (post_valid_cases _ _ _ Hv), He. Qed.

(** X9. A success answer is never given without a write: when the answer
    is a JSON body, the body passed validation, the document model accepted
    it, the one call to [create_document] on "contactmessage" returned, and
    the body carries status "ok" and the identifier of that call. *)
Theorem success_means_written
    (body : gmap string jvalue) (r : dict) (log : list (call Doc)) :
  fst (post body log) = JSONResponse r ->
  exists p doc inserted_id,
    validate body = Some p
    ∧ ContactMessage (ContactIn_dump p) = Ok doc
    ∧ create_document (py "contactmessage") doc log = Ok inserted_id
    ∧ r = <["status" := PStr (py "ok")]> (<["id" := PStr inserted_id]> ∅)
    ∧ snd (post body log) = log ++ [(py "contactmessage", doc)].
Proof.
  destruct (validate body) as [p|] eqn:Hv.
  - rewrite (post_valid_cases _ _ _ Hv).
    destruct (ContactMessage _) as [doc|e] eqn:Hd; [|done].
    destruct (create_document _ _ _) as [i|e] eqn:Hc; [|done].
    intros [= <-]. by exists p, doc, i.
  - by rewrite (rejected_before_handler _ _ _ _ _ _ Hv).
Qed.

(** X10. The answer has status 200, 422 or 500 and no other; it is 422
    exactly when the body fails validation, and 500 exactly when the body
    is valid and the document model or the store raised. *)
Theorem reply_status_cases (body : gmap string jvalue) (log : list (call Doc)) :
  reply_status (fst (post body log)) ∈ [200; 422; 500]%Z
  ∧ (reply_status (fst (post body log)) = 422%Z <-> validate body = None)
  ∧ (reply_status (fst (post body log)) = 500%Z <->
     exists p, validate body = Some p
       ∧ ((exists e, ContactMessage (ContactIn_dump p) = Raise e)
          ∨ (exists doc e,
               ContactMessage (ContactIn_dump p) = Ok doc
               ∧ create_document (py "contactmessage") doc log = Raise e))).
Proof.
  destruct (validate body) as [p|] eqn:Hv.
  - rewrite (post_valid_cases _ _ _ Hv).
    destruct (ContactMessage _) as [doc|e] eqn:Hd;
      [destruct (create_document _ _ _) as [i|e] eqn:Hc|]; simpl.
    + split; [set_solver|]. split; [done|]. split; [done|].
      intros (p' & [= <-] & [[e He] | (doc' & e & Hd' & He)]);
        [congruence|]. rewrite Hd in Hd'. simplify_eq. congruence.
    + split; [set_solver|]. split; [done|]. split; [|done].
      intros _. exists p. split; [done|]. right. by exists doc, e.
    + split; [set_solver|]. split; [done|]. split; [|done].
      intros _. exists p. split; [done|]. left. by exists e.
  - rewrite (rejected_before_handler _ _ _ _ _ _ Hv). simpl.
    split; [set_solver|]. split; [done|]. split; [done|].
    by intros (p & ? & _).
Qed.

(** X11. Nothing is deduplicated: submitting the same accepted body twice
    calls the store twice with the same document, whatever the store
    answers. *)
Theorem resubmission_writes_again
    (body : gmap string jvalue) (p : ContactIn) (doc : Doc)
    (log : list (call Doc)) :
  validate body = Some p ->
  ContactMessage (ContactIn_dump p) = Ok doc ->
  snd (post body (snd (post body log)))
  = log ++ [(py "contactmessage", doc); (py "contactmessage", doc)].
Proof.
  intros Hv Hd.
  assert (Hone : forall l, snd (post body l) = l ++ [(py "contactmessage", doc)]).
  { intros l. rewrite (post_valid_cases _ _ _ Hv), Hd.
    by destruct (create_document _ _ _). }
  by rewrite !Hone, <- app_assoc.
Qed.

(** X12. The handler only ever appends to the log of calls, and a call it
    appends is on the collection "contactmessage", with the document built
    from the validated payload. *)
Theorem calls_only_contactmessage
    (body : gmap string jvalue) (log : list (call Doc)) :
  log `prefix_of` snd (post body log)
  ∧ forall c, c ∈ snd (post body log) ->
      c ∈ log
      ∨ (fst c = py "contactmessage"
         ∧ exists p, validate body = Some p
                     ∧ ContactMessage (ContactIn_dump p) = Ok (snd c)).
Proof.
  destruct (validate body) as [p|] eqn:Hv.
  - rewrite (post_valid_cases _ _ _ Hv).
    destruct (ContactMessage _) as [doc|e] eqn:Hd.
    + assert (Hs : snd (match create_document (py "contactmessage") doc log with
                        | Ok inserted_id =>
                            (JSONResponse (<["status" := PStr (py "ok")]>
                               (<["id" := PStr inserted_id]> ∅)),
                             log ++ [(py "contactmessage", doc)])
                        | Raise e =>
                            (ErrorResponse 500 (exn_str e),
                             log ++ [(py "contactmessage", doc)])
                        end) = log ++ [(py "contactmessage", doc)])
        by (by destruct (create_document _ _ _)).
      rewrite Hs. split; [by apply prefix_app_r|].
      intros c [Hc|Hc]%elem_of_app; [by left|].
      apply list_elem_of_singleton in Hc as ->. right. simpl. eauto.
    + simpl. split; [done|]. by left.
  - rewrite (rejected_before_handler _ _ _ _ _ _ Hv). simpl.
    split; [done|]. by left.
Qed.

End HandlerMore.

(** ** Diagnostics *)

Section DiagnosticsMore.

Variable getenv : string -> option pystr.

(** The case analysis of the report, with the environment explicit. *)
Ltac report_cases dbm :=
  let e := fresh "e" in
  let db := fresh "db" in
  let v := fresh "v" in
  let names := fresh "names" in
  let He := fresh "He" in
  let Hv := fresh "Hv" in
  let Hn := fresh "Hn" in
  destruct dbm as [e|[db|]];
  [ destruct (is_import_error e) eqn:He;
    [ rewrite (test_database_after_probe getenv _ _
                 (probe_module_not_found _ initial_response He))
    | rewrite (test_database_after_probe getenv _ _
                 (probe_import_failed _ initial_response He)) ]
  | destruct (name_or_default db) as [v|e] eqn:Hv;
    [ destruct (list_collection_names db) as [names|e] eqn:Hn;
      [ rewrite (test_database_after_probe getenv _ _
                   (probe_working _ _ _ initial_response Hv Hn))
      | rewrite (test_database_after_probe getenv _ _
                   (probe_enumeration_failed _ _ _ initial_response Hv Hn)) ]
    | destruct (is_import_error e) eqn:He;
      [ rewrite (test_database_after_probe getenv _ _
                   (probe_name_import_error _ _ initial_response Hv He))
      | rewrite (test_database_after_probe getenv _ _
                   (probe_name_failed _ _ initial_response Hv He)) ] ]
  | rewrite (test_database_after_probe getenv _ _
               (probe_not_initialized initial_response)) ].

Lemma dom_initial_response :
  dom initial_response
  = ({["backend"; "database"; "database_url"; "database_name";
       "connection_status"; "collections"]} : gset string).
Proof.
  unfold initial_response. rewrite !dom_insert_L, dom_empty_L. set_solver.
Qed.

(** X13. The report always has the same six keys; "backend" is always the
    running mark, and "collections" is always a list of at most ten
    names. *)
Theorem report_shape (dbm : database_module) :
  exists r shown,
    test_database dbm getenv = Ok r
    ∧ dom r = ({["backend"; "database"; "database_url"; "database_name";
                 "connection_status"; "collections"]} : gset string)
    ∧ r !! "backend" = Some (PStr (CHECK_MARK ++ py " Running"))
    ∧ r !! "collections" = Some (PList shown)
    ∧ (length shown <= 10)%nat.
Proof.
  report_cases dbm; eexists _, _; (split; [reflexivity|]);
    (split; [rewrite !dom_insert_L, dom_initial_response; set_solver|]);
    (split; [by simplify_map_eq|]);
    (split; [by simplify_map_eq|]);
    first [rewrite length_take; lia | simpl; lia].
Qed.

(** X14. "connection_status" says "Connected" exactly when the module was
    imported, its handle is not [None] and the [name] lookup of line 118
    returned, also when the enumeration then fails; otherwise it stays
    "Not Connected". *)
Theorem connection_status_report (dbm : database_module) :
  exists r,
    test_database dbm getenv = Ok r
    ∧ r !! "connection_status"
      = Some (PStr (match dbm with
                    | Imported (Some db) =>
                        match name_or_default db with
                        | Ok _ => py "Connected"
                        | Raise _ => py "Not Connected"
                        end
                    | _ => py "Not Connected"
                    end)).
Proof.
  report_cases dbm; eexists; (split; [reflexivity|]);
    rewrite ?Hv; by simplify_map_eq.
Qed.

(** X15. The status "Connected & Working" is reported exactly when the
    module was imported, the handle is not [None], the [name] lookup
    returned and the enumeration returned; and the two interim status
    strings, "Not Available" and "Available", are never what is
    reported. *)
Theorem working_status_iff (dbm : database_module) :
  exists r,
    test_database dbm getenv = Ok r
    ∧ (r !! "database" = Some (PStr (CHECK_MARK ++ py " Connected & Working"))
       <-> exists db v names,
             dbm = Imported (Some db)
             ∧ name_or_default db = Ok v
             ∧ list_collection_names db = Ok names)
    ∧ r !! "database" ≠ Some (PStr (CROSS_MARK ++ py " Not Available"))
    ∧ r !! "database" ≠ Some (PStr (CHECK_MARK ++ py " Available")).
Proof.
  report_cases dbm; eexists; (split; [reflexivity|]);
    rewrite lookup_insert_ne, lookup_insert_ne, lookup_insert_eq by done;
    (split; [split; [try discriminate|]|split; discriminate]).
  - by intros (? & ? & ? & ? & _).
  - by intros (? & ? & ? & ? & _).
  - intros _. by eexists _, _, _.
  - done.
  - intros (db' & v' & names' & [= <-] & _ & Hn'). congruence.
  - intros (db' & v' & names' & [= <-] & Hv' & _). congruence.
  - intros (db' & v' & names' & [= <-] & Hv' & _). congruence.
  - by intros (? & ? & ? & ? & _).
Qed.

Lemma slice_to_length (n : nat) (s : pystr) :
  (length (slice_to n s) <= n)%nat.
Proof. unfold slice_to. rewrite length_take. lia. Qed.

(** X16. The status string has at most 75 characters, however long the
    message of the exception that the probe met. *)
Theorem status_length_bound (dbm : database_module) :
  exists r s,
    test_database dbm getenv = Ok r
    ∧ r !! "database" = Some (PStr s)
    ∧ (length s <= 75)%nat.
Proof.
  report_cases dbm; eexists _, _; (split; [reflexivity|]);
    (split;
       [rewrite lookup_insert_ne, lookup_insert_ne, lookup_insert_eq by done;
        reflexivity|]);
    rewrite ?length_app;
    try (pose proof (slice_to_length 50 (exn_str e)) as Hlen; revert Hlen;
         generalize (slice_to 50 (exn_str e)); intros m Hlen);
    simpl length; lia.
Qed.

(** X17. The name of the database is never reported: the value written to
    "database_name" from the handle is overwritten, so two handles whose
    [name] lookups both return (a value each, or no such attribute) and
    whose enumerations do the same give the same report. *)
Theorem handle_name_not_reported (db1 db2 : db_handle) (v1 v2 : pyval) :
  name_or_default db1 = Ok v1 ->
  name_or_default db2 = Ok v2 ->
  list_collection_names db1 = list_collection_names db2 ->
  test_database (Imported (Some db1)) getenv
  = test_database (Imported (Some db2)) getenv.
Proof.
  intros H1 H2 Hl.
  destruct (list_collection_names db2) as [names|e] eqn:Hn.
  - rewrite (test_database_after_probe getenv _ _
               (probe_working _ _ _ initial_response H1 Hl)),
      (test_database_after_probe getenv _ _
         (probe_working _ _ _ initial_response H2 Hn)).
    apply f_equal, map_eq. intros k.
    destruct (decide (k = "database_name")) as [->|Hk];
      [by rewrite !lookup_insert_eq|].
    rewrite !lookup_insert. by repeat case_decide.
  - rewrite (test_database_after_probe getenv _ _
               (probe_enumeration_failed _ _ _ initial_response H1 Hl)),
      (test_database_after_probe getenv _ _
         (probe_enumeration_failed _ _ _ initial_response H2 Hn)).
    apply f_equal, map_eq. intros k.
    destruct (decide (k = "database_name")) as [->|Hk];
      [by rewrite !lookup_insert_eq|].
    rewrite !lookup_insert. by repeat case_decide.
Qed.

End DiagnosticsMore.

(** X18. The environment only decides "database_url" and "database_name":
    every other entry of the report is the same under any two
    environments. *)
Theorem other_fields_ignore_environment
    (dbm : database_module) (getenv1 getenv2 : string -> option pystr) :
  exists r1 r2,
    test_database dbm getenv1 = Ok r1
    ∧ test_database dbm getenv2 = Ok r2
    ∧ forall k, k ≠ "database_url" -> k ≠ "database_name" ->
        r1 !! k = r2 !! k.
Proof.
  destruct (probe_database_returns dbm initial_response) as [response Hp].
  rewrite (test_database_after_probe getenv1 _ _ Hp),
    (test_database_after_probe getenv2 _ _ Hp).
  eexists _, _. split; [reflexivity|]. split; [reflexivity|].
  intros k Hu Hn. by rewrite !lookup_insert_ne.
Qed.

(** ** The further properties at concrete inputs *)

Lemma undeclared_key_ignored_witness :
  ContactIn_validate needs_at_sign body_with_extra
  = ContactIn_validate needs_at_sign good_body
  ∧ post_api_contact needs_at_sign dict doc_of_kwargs store_up
      body_with_extra []
    = post_api_contact needs_at_sign dict doc_of_kwargs store_up good_body [].
Proof.
  apply (undeclared_key_ignored needs_at_sign dict doc_of_kwargs store_up
           good_body "newsletter" (JBool true) []).
  intros H.
  repeat (apply elem_of_cons in H as [H|H]; [discriminate|]).
  by apply elem_of_nil in H.
Defined.

Lemma schema_rejection_no_write_witness :
  post_api_contact needs_at_sign dict doc_refused store_up good_body []
  = (ErrorResponse 500 (py "1 validation error for ContactMessage"), []).
Proof.
  apply (schema_rejection_no_write needs_at_sign dict doc_refused store_up
           good_body good_payload
           {| is_import_error := false;
              exn_str := py "1 validation error for ContactMessage" |} []).
  - vm_compute. reflexivity.
  - reflexivity.
Defined.

Lemma success_means_written_witness :
  exists p doc inserted_id,
    ContactIn_validate needs_at_sign good_body = Some p
    ∧ doc_of_kwargs (ContactIn_dump p) = Ok doc
    ∧ store_up (py "contactmessage") doc [] = Ok inserted_id
    ∧ (<["status" := PStr (py "ok")]>
         (<["id" := PStr (py "65f0c2a1e4b0a1b2c3d4e5f6")]> ∅) : dict)
      = <["status" := PStr (py "ok")]> (<["id" := PStr inserted_id]> ∅)
    ∧ snd (post_api_contact needs_at_sign dict doc_of_kwargs store_up
             good_body [])
      = [] ++ [(py "contactmessage", doc)].
Proof.
  apply (success_means_written needs_at_sign dict doc_of_kwargs store_up
           good_body
           (<["status" := PStr (py "ok")]>
              (<["id" := PStr (py "65f0c2a1e4b0a1b2c3d4e5f6")]> ∅)) []).
  vm_compute. reflexivity.
Defined.

Lemma resubmission_writes_again_witness :
  snd (post_api_contact needs_at_sign dict doc_of_kwargs store_down good_body
         (snd (post_api_contact needs_at_sign dict doc_of_kwargs store_down
                 good_body [])))
  = [] ++ [(py "contactmessage", ContactIn_dump good_payload);
           (py "contactmessage", ContactIn_dump good_payload)].
Proof.
  apply (resubmission_writes_again needs_at_sign dict doc_of_kwargs store_down
           good_body good_payload (ContactIn_dump good_payload) []).
  - vm_compute. reflexivity.
  - reflexivity.
Defined.

Lemma handle_name_not_reported_witness :
  test_database (Imported (Some live_db)) env_url_given
  = test_database (Imported (Some nameless_db)) env_url_given.
Proof.
  apply (handle_name_not_reported env_url_given live_db nameless_db
           (PStr (py "portfolio")) (PStr (CHECK_MARK ++ py " Connected")));
    reflexivity.
Defined.

(** A [name] lookup that raises skips the enumeration: the status is the
    error one and "connection_status" stays "Not Connected", although the
    enumeration would have returned. *)
Example report_of_broken_name_db :
  exists r,
    test_database (Imported (Some broken_name_db)) env_url_given = Ok r
    ∧ r !! "database"
      = Some (PStr (CROSS_MARK ++ py " Error: connection closed"))
    ∧ r !! "connection_status" = Some (PStr (py "Not Connected"))
    ∧ r !! "collections" = Some (PList []).
Proof. eexists. split; [reflexivity|]. repeat split; reflexivity. Qed.

(** A long error message is cut at fifty characters: the bound of 75 is
    met. *)
Example status_of_failing_db :
  exists r s,
    test_database (Imported (Some failing_db)) env_url_given = Ok r
    ∧ r !! "database" = Some (PStr s)
    ∧ length s = 75%nat.
Proof. eexists _, _. split; [reflexivity|]. split; reflexivity. Qed.
